(** * useRecordContractPlatform: a shallow embedding of the hook

    The development follows
    [react-front/src/hooks/useRecordContractPlatform.ts].  The hook closes
    over three values of the current render ([userAddress], [chainId],
    [walletClient]), owns two pieces of React state ([isPending],
    [children]) and talks to two transports: the signing transport of the
    wallet and a read-only public client.

    Asynchronous code is modelled sequentially: every [await] is a call of
    a transport function that either completes normally or throws, and that
    may change the remote state.  The effects of a call are recorded, in
    program order, in a trace. *)

From Stdlib Require Import ZArith String List Bool Lia.
Import ListNotations.

#[local] Open Scope string_scope.
#[local] Open Scope Z_scope.

(** ** Values *)

(** viem's [Address] and transaction hashes are hexadecimal strings. *)
Definition Address : Type := string.
Definition Hash : Type := string.

Record Child : Type := mkChild { childEOA : Address; role : string }.

Definition ZERO_ADDRESS : Address :=
  "0x0000000000000000000000000000000000000000".

Definition SEPOLIA_ADDRESS : Address :=
  "0xB1Db2211cB3bFAe1fB676104cA21f236F832435D".

(** JavaScript truthiness of a string, and of a possibly [undefined]
    string: the empty string and [undefined] are falsy. *)
Definition truthy_string (s : string) : bool :=
  negb (s =? "")%string.

Definition truthy (v : option string) : bool :=
  match v with
  | Some s => truthy_string s
  | None => false
  end.

(** [a || b] on possibly undefined strings. *)
Definition js_or (a b : option string) : option string :=
  if truthy a then a else b.

(** The two chains of [viem/chains] the hook imports, with their ids. *)
Inductive Chain : Type := hardhat | sepolia.

Definition chain_id (c : Chain) : Z :=
  match c with
  | hardhat => 31337
  | sepolia => 11155111
  end.

(** [http(url)]; [http()] without a URL uses the default public RPC
    endpoint of the client's chain. *)
Inductive Transport : Type := http (url : option string).

Record PublicClientConfig : Type :=
  mkPublicClientConfig { chain : Chain; transport : Transport }.

(** The endpoint a client configuration talks to: the explicit URL, or the
    default endpoint of the chain. *)
Inductive Endpoint : Type :=
| ExplicitUrl (url : string)
| ChainDefault (c : Chain).

Definition endpoint (cfg : PublicClientConfig) : Endpoint :=
  match transport cfg with
  | http (Some u) => ExplicitUrl u
  | http None => ChainDefault (chain cfg)
  end.

(** ** Numbers *)

(** The result of [Number(b)] for a bigint [b]: the double nearest to [b]
    (ties to even).  Such a double is an integer or an infinity. *)
Inductive JsNumber : Type :=
| Finite (z : Z)
| Infinity (negative : bool).

Definition MAX_SAFE_INTEGER : Z := 2 ^ 53 - 1.

(** Rounding of a non-negative integer to 53 significant bits. *)
Definition round53 (m : Z) : Z :=
  let k := Z.log2 m in
  if k <? 53 then m
  else
    let sh := k - 52 in
    let q := Z.shiftr m sh in
    let r := Z.land m (Z.ones sh) in
    let half := Z.shiftl 1 (sh - 1) in
    let q' := if (half <? r) || ((r =? half) && Z.odd q) then q + 1 else q in
    Z.shiftl q' sh.

Definition Number (b : Z) : JsNumber :=
  let m := round53 (Z.abs b) in
  if 2 ^ 1024 <=? m then Infinity (b <? 0) else Finite (Z.sgn b * m).

(** ** Errors and completions *)

Inductive JsError : Type := Error (message : string).

Definition ConfigurationError : JsError :=
  Error "RecordContractPlatform合约地址未设置".
Definition ConnectionError : JsError := Error "钱包未连接".
Definition IdentityError : JsError := Error "用户地址未设置".

(** How an awaited call settles. *)
Inductive Completion (A : Type) : Type :=
| Normal (a : A)
| Throw (e : JsError).
Arguments Normal {A} a.
Arguments Throw {A} e.

(** ** Requests *)

Record WriteRequest : Type := mkWriteRequest {
  wr_address : Address;
  wr_functionName : string;
  wr_args : list string;
  wr_account : Address;
  wr_chain : Chain
}.

(** Modelled from the spec: the ABI constant [RECORD_CONTRACT_PLATFORM_ABI]
    of [config/contracts] is missing.  The entry points and the types of
    their decoded results are those of the table of section 6: the
    enumeration returns a sequence of records, the lookup by role an
    address, the count a wide unsigned integer and the membership test a
    boolean. *)
Inductive AbiFunction : Type -> Type :=
| abi_getChildren : AbiFunction (list Child)
| abi_getChildByRole : AbiFunction Address
| abi_getChildrenCount : AbiFunction Z
| abi_isChildOf : AbiFunction bool.

Definition abi_name {T : Type} (f : AbiFunction T) : string :=
  match f with
  | abi_getChildren => "getChildren"
  | abi_getChildByRole => "getChildByRole"
  | abi_getChildrenCount => "getChildrenCount"
  | abi_isChildOf => "isChildOf"
  end.

Record ReadRequest (T : Type) : Type := mkReadRequest {
  rd_address : Address;
  rd_functionName : AbiFunction T;
  rd_args : list string
}.
Arguments mkReadRequest {T} _ _ _.
Arguments rd_address {T} _.
Arguments rd_functionName {T} _.
Arguments rd_args {T} _.

(** ** Traces *)

Inductive Event : Type :=
| EvSetIsPending (b : bool)
| EvSetChildren (l : list Child)
| EvWriteContract (req : WriteRequest)
| EvReadContract (cfg : PublicClientConfig) (address : Address)
    (functionName : string) (args : list string)
| EvWarn (msg : string)
| EvError (msg : string) (e : JsError).

Definition is_network (e : Event) : bool :=
  match e with
  | EvWriteContract _ | EvReadContract _ _ _ _ => true
  | _ => false
  end.

Definition network_calls (t : list Event) : nat :=
  length (filter is_network t).

Definition is_setChildren (e : Event) : bool :=
  match e with
  | EvSetChildren _ => true
  | _ => false
  end.

Definition is_setIsPending (e : Event) : bool :=
  match e with
  | EvSetIsPending _ => true
  | _ => false
  end.

(** ** The monad of the hook's asynchronous functions *)

Section Controller.

(** The remote state behind the transports (the chain, the RPC servers). *)
Variable Net : Type.

(** The read-only transport: [createPublicClient(cfg).readContract(req)]. *)
Variable readContract :
  forall T : Type, PublicClientConfig -> ReadRequest T -> Net -> Completion T * Net.

(** The signing transport of a connected wallet: [writeContract(req)]. *)
Definition WalletClient : Type := WriteRequest -> Net -> Completion Hash * Net.

(** The state store of the hook ([isPending], [children]) together with
    the remote state and the trace of effects so far. *)
Record World : Type := mkWorld {
  isPending : bool;
  children : list Child;
  net : Net;
  trace : list Event
}.

Definition M (A : Type) : Type := World -> Completion A * World.

Definition ret {A : Type} (a : A) : M A := fun w => (Normal a, w).

Definition throw {A : Type} (e : JsError) : M A := fun w => (Throw e, w).

Definition bind {A B : Type} (m : M A) (k : A -> M B) : M B :=
  fun w =>
    match m w with
    | (Normal a, w') => k a w'
    | (Throw e, w') => (Throw e, w')
    end.

(** [try { m } catch (error) { handler error }] *)
Definition try_catch {A : Type} (m : M A) (handler : JsError -> M A) : M A :=
  fun w =>
    match m w with
    | (Normal a, w') => (Normal a, w')
    | (Throw e, w') => handler e w'
    end.

(** [try { m } finally { cleanup }]: the cleanup runs on every exit of
    [m]; the completion of [m] is kept unless the cleanup throws. *)
Definition try_finally {A : Type} (m : M A) (cleanup : M unit) : M A :=
  fun w =>
    match m w with
    | (c, w') =>
        match cleanup w' with
        | (Normal _, w'') => (c, w'')
        | (Throw e, w'') => (Throw e, w'')
        end
    end.

Definition emit (e : Event) (w : World) : World :=
  mkWorld (isPending w) (children w) (net w) (trace w ++ [e]).

Definition setIsPending (b : bool) : M unit :=
  fun w => (Normal tt, emit (EvSetIsPending b)
                         (mkWorld b (children w) (net w) (trace w))).

Definition setChildren (l : list Child) : M unit :=
  fun w => (Normal tt, emit (EvSetChildren l)
                         (mkWorld (isPending w) l (net w) (trace w))).

Definition console_warn (msg : string) : M unit :=
  fun w => (Normal tt, emit (EvWarn msg) w).

Definition console_error (msg : string) (e : JsError) : M unit :=
  fun w => (Normal tt, emit (EvError msg e) w).

(** [await walletClient.writeContract(req)] *)
Definition writeContract (wallet : WalletClient) (req : WriteRequest) : M Hash :=
  fun w =>
    let w1 := emit (EvWriteContract req) w in
    match wallet req (net w1) with
    | (c, n') => (c, mkWorld (isPending w1) (children w1) n' (trace w1))
    end.

(** [await publicClient.readContract(req)] *)
Definition publicClient_readContract {T : Type}
    (cfg : PublicClientConfig) (req : ReadRequest T) : M T :=
  fun w =>
    let w1 := emit (EvReadContract cfg (rd_address req)
                      (abi_name (rd_functionName req)) (rd_args req)) w in
    match readContract T cfg req (net w1) with
    | (c, n') => (c, mkWorld (isPending w1) (children w1) n' (trace w1))
    end.

Notation "x <- m ;; k" := (bind m (fun x => k))
  (at level 61, m at next level, right associativity).
Notation "m ;;; k" := (bind m (fun _ => k))
  (at level 61, right associativity).

(** ** The hook *)

Section Hook.

(** The values the render closes over. *)
Variable userAddress : option Address.
Variable chainId : Z.
Variable walletClient : option WalletClient.

Definition getContractAddress : Address :=
  if chainId =? 11155111 then SEPOLIA_ADDRESS
  else if chainId =? 31337 then ZERO_ADDRESS
  else ZERO_ADDRESS.

Definition getPublicClient : PublicClientConfig :=
  let chain := if chainId =? 31337 then hardhat else sepolia in
  mkPublicClientConfig chain
    (if chainId =? 31337 then http (Some "http://127.0.0.1:8545") else http None).

(** [!contractAddress || contractAddress === '0x00...00'] *)
Definition address_unset (contractAddress : Address) : bool :=
  negb (truthy_string contractAddress)
  || (contractAddress =? ZERO_ADDRESS)%string.

Definition fetchChildren (ownerAddress : option Address) : M (list Child) :=
  let contractAddress := getContractAddress in
  if address_unset contractAddress then
    console_warn "RecordContractPlatform合约地址未设置" ;;;
    ret []
  else
    match js_or ownerAddress userAddress with
    | None =>
        console_warn "未提供查询地址" ;;;
        ret []
    | Some targetAddress =>
        if negb (truthy_string targetAddress) then
          console_warn "未提供查询地址" ;;;
          ret []
        else
          try_catch
            (let publicClient := getPublicClient in
             result <- publicClient_readContract publicClient
                         (mkReadRequest contractAddress abi_getChildren
                            [targetAddress]) ;;
             setChildren result ;;;
             ret result)
            (fun error =>
               console_error "获取子EOA列表失败:" error ;;;
               ret [])
    end.

Definition addChild (childAddress : Address) (role : string) : M Hash :=
  let contractAddress := getContractAddress in
  if address_unset contractAddress then throw ConfigurationError
  else
    match walletClient with
    | None => throw ConnectionError
    | Some wallet =>
        match userAddress with
        | None => throw IdentityError
        | Some account =>
            if negb (truthy_string account) then throw IdentityError
            else
              setIsPending true ;;;
              try_finally
                (let chain := if chainId =? 31337 then hardhat else sepolia in
                 hash <- writeContract wallet
                           (mkWriteRequest contractAddress "addChild"
                              [childAddress; role] account chain) ;;
                 fetchChildren None ;;;
                 ret hash)
                (setIsPending false)
        end
    end.

Definition removeChild (childAddress : Address) : M Hash :=
  let contractAddress := getContractAddress in
  if address_unset contractAddress then throw ConfigurationError
  else
    match walletClient with
    | None => throw ConnectionError
    | Some wallet =>
        match userAddress with
        | None => throw IdentityError
        | Some account =>
            if negb (truthy_string account) then throw IdentityError
            else
              setIsPending true ;;;
              try_finally
                (let chain := if chainId =? 31337 then hardhat else sepolia in
                 hash <- writeContract wallet
                           (mkWriteRequest contractAddress "removeChild"
                              [childAddress] account chain) ;;
                 fetchChildren None ;;;
                 ret hash)
                (setIsPending false)
        end
    end.

Definition getChildByRole (role : string) (ownerAddress : option Address)
    : M (option Address) :=
  let contractAddress := getContractAddress in
  if address_unset contractAddress then
    console_warn "RecordContractPlatform合约地址未设置" ;;;
    ret None
  else
    match js_or ownerAddress userAddress with
    | None =>
        console_warn "未提供查询地址" ;;;
        ret None
    | Some targetAddress =>
        if negb (truthy_string targetAddress) then
          console_warn "未提供查询地址" ;;;
          ret None
        else
          try_catch
            (let publicClient := getPublicClient in
             result <- publicClient_readContract publicClient
                         (mkReadRequest contractAddress abi_getChildByRole
                            [targetAddress; role]) ;;
             ret (if (result =? ZERO_ADDRESS)%string then None else Some result))
            (fun error =>
               console_error "根据角色获取子EOA失败:" error ;;;
               ret None)
    end.

Definition getChildrenCount (ownerAddress : option Address) : M JsNumber :=
  let contractAddress := getContractAddress in
  if address_unset contractAddress then ret (Finite 0)
  else
    match js_or ownerAddress userAddress with
    | None => ret (Finite 0)
    | Some targetAddress =>
        if negb (truthy_string targetAddress) then ret (Finite 0)
        else
          try_catch
            (let publicClient := getPublicClient in
             result <- publicClient_readContract publicClient
                         (mkReadRequest contractAddress abi_getChildrenCount
                            [targetAddress]) ;;
             ret (Number result))
            (fun error =>
               console_error "获取子EOA数量失败:" error ;;;
               ret (Finite 0))
    end.

Definition isChildOf (childAddress : Address) (ownerAddress : option Address)
    : M bool :=
  let contractAddress := getContractAddress in
  if address_unset contractAddress then ret false
  else
    match js_or ownerAddress userAddress with
    | None => ret false
    | Some targetAddress =>
        if negb (truthy_string targetAddress) then ret false
        else
          try_catch
            (let publicClient := getPublicClient in
             result <- publicClient_readContract publicClient
                         (mkReadRequest contractAddress abi_isChildOf
                            [targetAddress; childAddress]) ;;
             ret result)
            (fun error =>
               console_error "检查子EOA关系失败:" error ;;;
               ret false)
    end.

End Hook.

End Controller.

Arguments World Net : clear implicits.
Arguments M Net A : clear implicits.
Arguments mkWorld {Net} _ _ _ _.
Arguments isPending {Net} _.
Arguments children {Net} _.
Arguments net {Net} _.
Arguments trace {Net} _.
Arguments emit {Net} _ _.
Arguments fetchChildren {Net} _ _ _ _ _.
Arguments addChild {Net} _ _ _ _ _ _ _.
Arguments removeChild {Net} _ _ _ _ _ _.
Arguments getChildByRole {Net} _ _ _ _ _ _.
Arguments getChildrenCount {Net} _ _ _ _ _.
Arguments isChildOf {Net} _ _ _ _ _ _.

(** ** Stub transports

    A call-counting remote state with an on-chain registry, used to run
    the hook on concrete inputs. *)

Module Stub.

Record Net : Type := mkNet { registry : list Child; calls : nat }.

Definition tick (n : Net) : Net := mkNet (registry n) (S (calls n)).

(** A read transport that answers from the registry. *)
Definition read_ok (T : Type) (cfg : PublicClientConfig)
    (req : ReadRequest T) (n : Net) : Completion T * Net :=
  (match rd_functionName req in AbiFunction T0 return Completion T0 with
   | abi_getChildren => Normal (registry n)
   | abi_getChildByRole =>
       Normal (match registry n with
               | c :: _ => childEOA c
               | [] => ZERO_ADDRESS
               end)
   | abi_getChildrenCount => Normal (Z.of_nat (length (registry n)))
   | abi_isChildOf => Normal (negb (Nat.eqb (length (registry n)) 0))
   end, tick n).

(** A read transport whose every call fails. *)
Definition read_fail (T : Type) (cfg : PublicClientConfig)
    (req : ReadRequest T) (n : Net) : Completion T * Net :=
  (Throw (Error "rpc unreachable"), tick n).

(** A wallet that registers the child of an [addChild] request. *)
Definition wallet_ok : WalletClient Net :=
  fun req n =>
    (Normal "0xTX1",
     mkNet (match wr_args req with
            | [a; r] => registry n ++ [mkChild a r]
            | _ => registry n
            end) (S (calls n))).

(** A wallet whose submission is rejected. *)
Definition wallet_fail : WalletClient Net :=
  fun req n => (Throw (Error "user rejected the request"), tick n).

Definition U : Address := "0x00000000000000000000000000000000000000AA".
Definition A1 : Address := "0x0000000000000000000000000000000000000AAA".
Definition B1 : Address := "0x0000000000000000000000000000000000000BBB".

Definition world0 : World Net := mkWorld false [] (mkNet [] 0) [].

(** A world whose cache already holds one record. *)
Definition world1 : World Net :=
  mkWorld false [mkChild B1 "ops"] (mkNet [mkChild B1 "ops"] 0) [].

End Stub.

(** ** Vocabulary of the statements *)

(** The three preconditions of a write, in the order of the
    specification: the first one that fails names the error. *)
Inductive FailedPrecondition {Net : Type} (userAddress : option Address)
    (chainId : Z) (walletClient : option (WalletClient Net)) : JsError -> Prop :=
| fp_configuration :
    getContractAddress chainId = ZERO_ADDRESS ->
    FailedPrecondition userAddress chainId walletClient ConfigurationError
| fp_connection :
    getContractAddress chainId <> ZERO_ADDRESS ->
    walletClient = None ->
    FailedPrecondition userAddress chainId walletClient ConnectionError
| fp_identity :
    getContractAddress chainId <> ZERO_ADDRESS ->
    walletClient <> None ->
    truthy userAddress = false ->
    FailedPrecondition userAddress chainId walletClient IdentityError.

(** All three preconditions hold, with the wallet and the account they
    provide. *)
Definition Ready {Net : Type} (userAddress : option Address) (chainId : Z)
    (walletClient : option (WalletClient Net))
    (wallet : WalletClient Net) (account : Address) : Prop :=
  getContractAddress chainId <> ZERO_ADDRESS /\
  walletClient = Some wallet /\
  userAddress = Some account /\
  truthy_string account = true.

(** A call of one of the two write operations. *)
Inductive WriteCall : Type :=
| CallAddChild (childAddress : Address) (role : string)
| CallRemoveChild (childAddress : Address).

Definition run_write {Net : Type}
    (readContract : forall T : Type,
        PublicClientConfig -> ReadRequest T -> Net -> Completion T * Net)
    (userAddress : option Address) (chainId : Z)
    (walletClient : option (WalletClient Net)) (c : WriteCall) : M Net Hash :=
  match c with
  | CallAddChild a r => addChild readContract userAddress chainId walletClient a r
  | CallRemoveChild a => removeChild readContract userAddress chainId walletClient a
  end.

(** The request a write call submits to the wallet. *)
Definition write_request (chainId : Z) (account : Address) (c : WriteCall)
    : WriteRequest :=
  let chain := if chainId =? 31337 then hardhat else sepolia in
  match c with
  | CallAddChild a r =>
      mkWriteRequest (getContractAddress chainId) "addChild" [a; r] account chain
  | CallRemoveChild a =>
      mkWriteRequest (getContractAddress chainId) "removeChild" [a] account chain
  end.

(** The read request of an entry point, and the event it leaves. *)
Definition read_request {T : Type} (chainId : Z) (f : AbiFunction T)
    (args : list string) : ReadRequest T :=
  mkReadRequest (getContractAddress chainId) f args.

Definition read_event {T : Type} (chainId : Z) (f : AbiFunction T)
    (args : list string) : Event :=
  EvReadContract (getPublicClient chainId) (getContractAddress chainId)
    (abi_name f) args.

(** The answer of the read transport to the request of an entry point. *)
Definition read_call {Net : Type}
    (readContract : forall T : Type,
        PublicClientConfig -> ReadRequest T -> Net -> Completion T * Net)
    (chainId : Z) {T : Type} (f : AbiFunction T) (args : list string)
    (n : Net) : Completion T * Net :=
  readContract T (getPublicClient chainId) (read_request chainId f args) n.

(** The owner a read operation resolves: [ownerAddress || userAddress],
    when truthy. *)
Definition resolved_owner (ownerAddress userAddress : option Address)
    (target : Address) : Prop :=
  js_or ownerAddress userAddress = Some target /\ truthy_string target = true.

(** The two cases in which a read operation answers without a transport:
    the contract address is unset, or neither an explicit owner nor an
    authenticated account is available. *)
Definition short_circuits (userAddress : option Address) (chainId : Z)
    (ownerAddress : option Address) : Prop :=
  getContractAddress chainId = ZERO_ADDRESS \/
  (truthy ownerAddress = false /\ truthy userAddress = false).

(** A run of [m] from [w] contacts no transport. *)
Definition no_network {Net A : Type} (m : M Net A) (w : World Net) : Prop :=
  net (snd (m w)) = net w /\
  network_calls (trace (snd (m w))) = network_calls (trace w).

(** A run of [m] from [w] returns [v] to the caller. *)
Definition returns {Net A : Type} (m : M Net A) (w : World Net) (v : A) : Prop :=
  fst (m w) = Normal v.

(** A run of [m] from [w] raises [e] to the caller. *)
Definition raises {Net A : Type} (m : M Net A) (w : World Net) (e : JsError)
    : Prop :=
  fst (m w) = Throw e.

(** An effect that reaches a transport is addressed to the Sepolia
    deployment: a write through the Sepolia chain, a read through the
    client of the Sepolia chain at its default endpoint. *)
Definition sepolia_only (e : Event) : Prop :=
  match e with
  | EvWriteContract req =>
      wr_address req = SEPOLIA_ADDRESS /\ wr_chain req = sepolia
  | EvReadContract cfg address _ _ =>
      cfg = mkPublicClientConfig sepolia (http None) /\
      address = SEPOLIA_ADDRESS
  | _ => True
  end.

(** The events a run of [m] from [w] appends to the trace. *)
Definition appends {Net A : Type} (m : M Net A) (w : World Net)
    (evs : list Event) : Prop :=
  trace (snd (m w)) = (trace w ++ evs)%list.

(** The range of a [uint256], the type of the on-chain count. *)
Definition UINT256_MAX : Z := 2 ^ 256 - 1.

(** The scenario of the specification on Sepolia: the submission returns
    the handle, the cache holds the new record and the flag is released. *)
Example addChild_scenario :
  addChild Stub.read_ok (Some Stub.U) 11155111 (Some Stub.wallet_ok)
    Stub.A1 "admin" Stub.world0
  = (Normal "0xTX1",
     mkWorld false [mkChild Stub.A1 "admin"]
       (Stub.mkNet [mkChild Stub.A1 "admin"] 2)
       [EvSetIsPending true;
        EvWriteContract
          (mkWriteRequest SEPOLIA_ADDRESS "addChild" [Stub.A1; "admin"]
             Stub.U sepolia);
        EvReadContract (mkPublicClientConfig sepolia (http None))
          SEPOLIA_ADDRESS "getChildren" [Stub.U];
        EvSetChildren [mkChild Stub.A1 "admin"];
        EvSetIsPending false]).
Proof. reflexivity. Qed.

Example Number_exact : Number (2 ^ 53) = Finite (2 ^ 53).
Proof. vm_compute. reflexivity. Qed.

Example Number_rounds : Number (2 ^ 53 + 1) = Finite (2 ^ 53).
Proof. vm_compute. reflexivity. Qed.

Example Number_rounds_up : Number (2 ^ 53 + 3) = Finite (2 ^ 53 + 4).
Proof. vm_compute. reflexivity. Qed.

Example Number_uint256_max : Number (2 ^ 256 - 1) = Finite (2 ^ 256).
Proof. vm_compute. reflexivity. Qed.

(** ** The resolver *)

Lemma getContractAddress_cases (chainId : Z) :
  (chainId = 11155111 /\ getContractAddress chainId = SEPOLIA_ADDRESS) \/
  (chainId <> 11155111 /\ getContractAddress chainId = ZERO_ADDRESS).
Proof.
  unfold getContractAddress.
  destruct (Z.eqb_spec chainId 11155111) as [E | E]; [left | right]; split; auto.
  destruct (chainId =? 31337); reflexivity.
Qed.

Lemma address_unset_true (chainId : Z) :
  getContractAddress chainId = ZERO_ADDRESS ->
  address_unset (getContractAddress chainId) = true.
Proof. intros ->. reflexivity. Qed.

Lemma address_unset_false (chainId : Z) :
  getContractAddress chainId <> ZERO_ADDRESS ->
  address_unset (getContractAddress chainId) = false.
Proof.
  intros H. destruct (getContractAddress_cases chainId) as [[_ E] | [_ E]].
  - rewrite E. reflexivity.
  - contradiction.
Qed.

Lemma configured_chain (chainId : Z) :
  getContractAddress chainId <> ZERO_ADDRESS ->
  chainId = 11155111.
Proof.
  intros H. destruct (getContractAddress_cases chainId) as [[E _] | [_ E]];
    [assumption | contradiction].
Qed.

(** C7: [getContractAddress] is a function of the network id alone; the
    two recognized ids map to their configured addresses (the Sepolia
    deployment, and the still unset Hardhat entry), and every other id maps
    to the zero sentinel.  Being a total function, it cannot throw, and two
    calls with the same id agree. *)
Theorem getContractAddress_total (chainId : Z) :
  chainId <> 11155111 -> chainId <> 31337 ->
  getContractAddress chainId = ZERO_ADDRESS /\
  getContractAddress 11155111 = SEPOLIA_ADDRESS /\
  getContractAddress 31337 = ZERO_ADDRESS /\
  (forall again : Z, again = chainId ->
     getContractAddress again = getContractAddress chainId).
Proof.
  intros H1 H2. repeat split.
  - destruct (getContractAddress_cases chainId) as [[E _] | [_ E]];
      [contradiction | exact E].
  - intros again ->. reflexivity.
Qed.

Lemma getContractAddress_total_witness :
  getContractAddress 1 = ZERO_ADDRESS /\
  getContractAddress 11155111 = SEPOLIA_ADDRESS /\
  getContractAddress 31337 = ZERO_ADDRESS /\
  (forall again : Z, again = 1 ->
     getContractAddress again = getContractAddress 1).
Proof. apply (getContractAddress_total 1); lia. Defined.

(** C8, as stated, fails: the endpoint of a network other than the local
    one does not depend on the network id.  Network 1 is served by the
    Sepolia client, whose chain id is not 1, and by the same client as
    network 5. *)
Lemma getPublicClient_ignores_network_id :
  chain_id (chain (getPublicClient 1)) <> 1 /\
  1 <> 31337 /\ 5 <> 31337 /\ 1 <> 5 /\
  endpoint (getPublicClient 1) = endpoint (getPublicClient 5).
Proof. repeat split; try lia; vm_compute; discriminate. Qed.

(** C8, amended: [getPublicClient] is total; the local network id 31337
    resolves to the Hardhat chain at the loopback endpoint, and every
    other network id resolves to one and the same client, the Sepolia
    chain at its default public endpoint. *)
Theorem getPublicClient_total (chainId : Z) :
  chainId <> 31337 ->
  getPublicClient chainId = mkPublicClientConfig sepolia (http None) /\
  endpoint (getPublicClient chainId) = ChainDefault sepolia /\
  getPublicClient 31337
    = mkPublicClientConfig hardhat (http (Some "http://127.0.0.1:8545")) /\
  endpoint (getPublicClient 31337) = ExplicitUrl "http://127.0.0.1:8545".
Proof.
  intros H. unfold getPublicClient.
  destruct (Z.eqb_spec chainId 31337) as [E | _]; [contradiction |].
  repeat split.
Qed.

Lemma getPublicClient_total_witness :
  getPublicClient 1 = mkPublicClientConfig sepolia (http None) /\
  endpoint (getPublicClient 1) = ChainDefault sepolia /\
  getPublicClient 31337
    = mkPublicClientConfig hardhat (http (Some "http://127.0.0.1:8545")) /\
  endpoint (getPublicClient 31337) = ExplicitUrl "http://127.0.0.1:8545".
Proof. apply (getPublicClient_total 1); lia. Defined.

(** ** Conversion of counts *)

Lemma round53_small (n : Z) : 0 <= n < 2 ^ 53 -> round53 n = n.
Proof.
  intros [H0 H1]. unfold round53.
  assert (L : Z.log2 n < 53).
  { destruct (Z.eq_dec n 0) as [-> | N]; [reflexivity |].
    apply Z.log2_lt_pow2; lia. }
  destruct (Z.ltb_spec (Z.log2 n) 53); [reflexivity | lia].
Qed.

Lemma Number_safe (n : Z) : 0 <= n <= MAX_SAFE_INTEGER -> Number n = Finite n.
Proof.
  unfold MAX_SAFE_INTEGER. intros [H0 H1]. unfold Number.
  rewrite Z.abs_eq by assumption.
  rewrite round53_small by lia.
  assert (B : n < 2 ^ 1024).
  { apply Z.lt_le_trans with (2 ^ 53); [lia |].
    apply Z.pow_le_mono_r; lia. }
  destruct (Z.leb_spec (2 ^ 1024) n); [lia |].
  f_equal. destruct (Z.eq_dec n 0) as [-> | N]; [reflexivity |].
  rewrite Z.sgn_pos by lia. lia.
Qed.

(** ** Runs of the operations *)

Section Runs.

Context {Net : Type}.
Variable readContract :
  forall T : Type, PublicClientConfig -> ReadRequest T -> Net -> Completion T * Net.
Variable userAddress : option Address.
Variable chainId : Z.
Variable walletClient : option (WalletClient Net).

Ltac run_read :=
  unfold try_catch, bind, publicClient_readContract, setChildren,
    console_error, console_warn, ret, emit; cbn [net trace isPending children
    rd_address rd_functionName rd_args abi_name].

Lemma resolved_owner_truthy ownerAddress target :
  resolved_owner ownerAddress userAddress target ->
  truthy (js_or ownerAddress userAddress) = true.
Proof. intros [-> H]. exact H. Qed.

Lemma unresolved_owner ownerAddress :
  truthy (js_or ownerAddress userAddress) = false ->
  js_or ownerAddress userAddress = None \/
  exists t, js_or ownerAddress userAddress = Some t /\ truthy_string t = false.
Proof.
  destruct (js_or ownerAddress userAddress) as [t |]; cbn; intros H.
  - right. exists t. auto.
  - left. reflexivity.
Qed.

(** The run of [fetchChildren] once the address is set and an owner is
    resolved: one read, then either the cache is replaced or the error is
    logged. *)
Lemma fetchChildren_run ownerAddress target (w : World Net) :
  getContractAddress chainId <> ZERO_ADDRESS ->
  resolved_owner ownerAddress userAddress target ->
  fetchChildren readContract userAddress chainId ownerAddress w =
  match readContract _ (getPublicClient chainId)
          (read_request chainId abi_getChildren [target]) (net w) with
  | (Normal l, n') =>
      (Normal l,
       mkWorld (isPending w) l n'
         (trace w ++ [read_event chainId abi_getChildren [target];
                      EvSetChildren l]))
  | (Throw e, n') =>
      (Normal [],
       mkWorld (isPending w) (children w) n'
         (trace w ++ [read_event chainId abi_getChildren [target];
                      EvError "获取子EOA列表失败:" e]))
  end.
Proof.
  intros HA [HO HT]. unfold fetchChildren.
  rewrite (address_unset_false _ HA), HO, HT. cbn [negb].
  run_read. unfold read_request, read_event.
  destruct (readContract _ _ _ (net w)) as [[l | e] n'];
    cbn; rewrite <- app_assoc; reflexivity.
Qed.

Lemma getChildByRole_run role ownerAddress target (w : World Net) :
  getContractAddress chainId <> ZERO_ADDRESS ->
  resolved_owner ownerAddress userAddress target ->
  getChildByRole readContract userAddress chainId role ownerAddress w =
  match readContract _ (getPublicClient chainId)
          (read_request chainId abi_getChildByRole [target; role]) (net w) with
  | (Normal a, n') =>
      (Normal (if (a =? ZERO_ADDRESS)%string then None else Some a),
       mkWorld (isPending w) (children w) n'
         (trace w ++ [read_event chainId abi_getChildByRole [target; role]]))
  | (Throw e, n') =>
      (Normal None,
       mkWorld (isPending w) (children w) n'
         (trace w ++ [read_event chainId abi_getChildByRole [target; role];
                      EvError "根据角色获取子EOA失败:" e]))
  end.
Proof.
  intros HA [HO HT]. unfold getChildByRole.
  rewrite (address_unset_false _ HA), HO, HT. cbn [negb].
  run_read. unfold read_request, read_event.
  destruct (readContract _ _ _ (net w)) as [[l | e] n'];
    cbn; rewrite <- ?app_assoc; reflexivity.
Qed.

Lemma getChildrenCount_run ownerAddress target (w : World Net) :
  getContractAddress chainId <> ZERO_ADDRESS ->
  resolved_owner ownerAddress userAddress target ->
  getChildrenCount readContract userAddress chainId ownerAddress w =
  match readContract _ (getPublicClient chainId)
          (read_request chainId abi_getChildrenCount [target]) (net w) with
  | (Normal n, n') =>
      (Normal (Number n),
       mkWorld (isPending w) (children w) n'
         (trace w ++ [read_event chainId abi_getChildrenCount [target]]))
  | (Throw e, n') =>
      (Normal (Finite 0),
       mkWorld (isPending w) (children w) n'
         (trace w ++ [read_event chainId abi_getChildrenCount [target];
                      EvError "获取子EOA数量失败:" e]))
  end.
Proof.
  intros HA [HO HT]. unfold getChildrenCount.
  rewrite (address_unset_false _ HA), HO, HT. cbn [negb].
  run_read. unfold read_request, read_event.
  destruct (readContract _ _ _ (net w)) as [[l | e] n'];
    cbn; rewrite <- ?app_assoc; reflexivity.
Qed.

Lemma isChildOf_run childAddress ownerAddress target (w : World Net) :
  getContractAddress chainId <> ZERO_ADDRESS ->
  resolved_owner ownerAddress userAddress target ->
  isChildOf readContract userAddress chainId childAddress ownerAddress w =
  match readContract _ (getPublicClient chainId)
          (read_request chainId abi_isChildOf [target; childAddress])
          (net w) with
  | (Normal b, n') =>
      (Normal b,
       mkWorld (isPending w) (children w) n'
         (trace w ++ [read_event chainId abi_isChildOf [target; childAddress]]))
  | (Throw e, n') =>
      (Normal false,
       mkWorld (isPending w) (children w) n'
         (trace w ++ [read_event chainId abi_isChildOf [target; childAddress];
                      EvError "检查子EOA关系失败:" e]))
  end.
Proof.
  intros HA [HO HT]. unfold isChildOf.
  rewrite (address_unset_false _ HA), HO, HT. cbn [negb].
  run_read. unfold read_request, read_event.
  destruct (readContract _ _ _ (net w)) as [[l | e] n'];
    cbn; rewrite <- ?app_assoc; reflexivity.
Qed.

Lemma network_calls_app (t u : list Event) :
  network_calls (t ++ u) = (network_calls t + network_calls u)%nat.
Proof. unfold network_calls. rewrite filter_app, length_app. reflexivity. Qed.

Lemma resolved_account account :
  truthy_string account = true ->
  resolved_owner None (Some account) account.
Proof. intros H. split; [reflexivity | exact H]. Qed.

(** Either some precondition of a write fails, or all three hold. *)
Lemma preconditions_decided :
  (exists e, FailedPrecondition userAddress chainId walletClient e) \/
  (exists wallet account, Ready userAddress chainId walletClient wallet account).
Proof.
  destruct (getContractAddress_cases chainId) as [[_ E] | [_ E]].
  2:{ left. exists ConfigurationError. constructor. exact E. }
  assert (HA : getContractAddress chainId <> ZERO_ADDRESS)
    by (rewrite E; discriminate).
  destruct walletClient as [wallet |] eqn:W.
  2:{ left. exists ConnectionError. now constructor. }
  destruct (truthy userAddress) eqn:T.
  - right. destruct userAddress as [account |]; [| discriminate].
    exists wallet, account. repeat split; assumption.
  - left. exists IdentityError. constructor; [assumption | discriminate | assumption].
Qed.

(** A failed precondition ends the call at once: the error is thrown and
    the world is untouched. *)
Lemma run_write_failed (c : WriteCall) (e : JsError) (w : World Net) :
  FailedPrecondition userAddress chainId walletClient e ->
  run_write readContract userAddress chainId walletClient c w = (Throw e, w).
Proof.
  intros H. destruct H as [HA | HA HW | HA HW HU];
    destruct c; unfold run_write, addChild, removeChild.
  1,2: rewrite (address_unset_true _ HA); reflexivity.
  1,2: rewrite (address_unset_false _ HA), HW; reflexivity.
  all: rewrite (address_unset_false _ HA);
    destruct walletClient as [wallet |]; [| contradiction];
    destruct userAddress as [account |]; [| reflexivity];
    cbn in HU; rewrite HU; reflexivity.
Qed.

(** The run of a write whose preconditions hold, in its three outcomes:
    the submission fails; it succeeds and the refresh succeeds; it
    succeeds and the refresh fails. *)
Lemma run_write_ready (c : WriteCall) wallet account (w : World Net) :
  Ready userAddress chainId walletClient wallet account ->
  run_write readContract userAddress chainId walletClient c w =
  let req := write_request chainId account c in
  let fetch := read_event chainId abi_getChildren [account] in
  match wallet req (net w) with
  | (Throw e, n1) =>
      (Throw e,
       mkWorld false (children w) n1
         (trace w ++ [EvSetIsPending true; EvWriteContract req;
                      EvSetIsPending false]))
  | (Normal h, n1) =>
      match readContract _ (getPublicClient chainId)
              (read_request chainId abi_getChildren [account]) n1 with
      | (Normal l, n2) =>
          (Normal h,
           mkWorld false l n2
             (trace w ++ [EvSetIsPending true; EvWriteContract req; fetch;
                          EvSetChildren l; EvSetIsPending false]))
      | (Throw e, n2) =>
          (Normal h,
           mkWorld false (children w) n2
             (trace w ++ [EvSetIsPending true; EvWriteContract req; fetch;
                          EvError "获取子EOA列表失败:" e;
                          EvSetIsPending false]))
      end
  end.
Proof.
  intros (HA & HW & HU & HT).
  assert (F := fun w0 => fetchChildren_run None account w0 HA).
  rewrite HU in F.
  specialize (fun w0 => F w0 (resolved_account account HT)).
  destruct c; unfold run_write, addChild, removeChild;
    rewrite (address_unset_false _ HA), HW;
    rewrite HU in *; rewrite HT; cbn [negb];
    unfold try_finally, bind, writeContract, setIsPending, ret, emit;
    cbn [net trace isPending children write_request];
    (destruct (wallet _ (net w)) as [[h | e] n1];
     [ rewrite F; cbn [net trace isPending children];
       destruct (readContract _ _ _ n1) as [[l | e] n2]
     | ]);
    cbn; rewrite <- !app_assoc; reflexivity.
Qed.

(** ** Short circuits of the read operations *)

Lemma owner_unresolved ownerAddress :
  truthy ownerAddress = false -> truthy userAddress = false ->
  truthy (js_or ownerAddress userAddress) = false.
Proof. unfold js_or. intros -> H. exact H. Qed.

Lemma owner_decided ownerAddress :
  (exists target, resolved_owner ownerAddress userAddress target) \/
  (truthy ownerAddress = false /\ truthy userAddress = false).
Proof.
  unfold resolved_owner, js_or.
  destruct (truthy ownerAddress) eqn:TO.
  - left. destruct ownerAddress as [t |]; [| discriminate]. exists t. auto.
  - destruct (truthy userAddress) eqn:TU.
    + left. destruct userAddress as [t |]; [| discriminate]. exists t. auto.
    + right. auto.
Qed.

Ltac settle_short :=
  unfold returns, no_network, bind, console_warn, ret, emit;
  cbn -[network_calls]; rewrite ?network_calls_app; cbn;
  repeat split; try reflexivity; lia.

Ltac short_circuit op owner :=
  let HA := fresh "HA" in
  let E := fresh "E" in
  let H1 := fresh "H1" in
  let H2 := fresh "H2" in
  intros [HA | [H1 H2]];
  [ | destruct (getContractAddress_cases chainId) as [[_ E] | [_ HA]] ];
  [ unfold op; rewrite (address_unset_true _ HA); settle_short
  | unfold op; rewrite address_unset_false by (rewrite E; discriminate);
    destruct (unresolved_owner owner (owner_unresolved owner H1 H2))
      as [-> | (? & -> & ->)]; settle_short
  | unfold op; rewrite (address_unset_true _ HA); settle_short ].

Lemma fetchChildren_short ownerAddress (w : World Net) :
  short_circuits userAddress chainId ownerAddress ->
  returns (fetchChildren readContract userAddress chainId ownerAddress) w [] /\
  no_network (fetchChildren readContract userAddress chainId ownerAddress) w.
Proof. short_circuit @fetchChildren ownerAddress. Qed.

Lemma getChildByRole_short role ownerAddress (w : World Net) :
  short_circuits userAddress chainId ownerAddress ->
  returns (getChildByRole readContract userAddress chainId role ownerAddress)
    w None /\
  no_network (getChildByRole readContract userAddress chainId role ownerAddress) w.
Proof. short_circuit @getChildByRole ownerAddress. Qed.

Lemma getChildrenCount_short ownerAddress (w : World Net) :
  short_circuits userAddress chainId ownerAddress ->
  returns (getChildrenCount readContract userAddress chainId ownerAddress)
    w (Finite 0) /\
  no_network (getChildrenCount readContract userAddress chainId ownerAddress) w.
Proof. short_circuit @getChildrenCount ownerAddress. Qed.

Lemma isChildOf_short childAddress ownerAddress (w : World Net) :
  short_circuits userAddress chainId ownerAddress ->
  returns (isChildOf readContract userAddress chainId childAddress ownerAddress)
    w false /\
  no_network (isChildOf readContract userAddress chainId childAddress
                ownerAddress) w.
Proof. short_circuit @isChildOf ownerAddress. Qed.

(** Every read operation settles normally, whatever the transport does. *)
Lemma fetchChildren_settles ownerAddress (w : World Net) :
  exists v,
    returns (fetchChildren readContract userAddress chainId ownerAddress) w v.
Proof.
  destruct (getContractAddress_cases chainId) as [[_ E] | [_ E]].
  2:{ eexists. apply fetchChildren_short. left. exact E. }
  destruct (owner_decided ownerAddress) as [[target R] | N].
  2:{ eexists. apply fetchChildren_short. right. exact N. }
  unfold returns.
  rewrite (fetchChildren_run _ target w ltac:(rewrite E; discriminate) R).
  destruct (readContract _ _ _ (net w)) as [[? | ?] ?]; eexists; reflexivity.
Qed.

Lemma getChildByRole_settles role ownerAddress (w : World Net) :
  exists v,
    returns (getChildByRole readContract userAddress chainId role ownerAddress)
      w v.
Proof.
  destruct (getContractAddress_cases chainId) as [[_ E] | [_ E]].
  2:{ eexists. apply getChildByRole_short. left. exact E. }
  destruct (owner_decided ownerAddress) as [[target R] | N].
  2:{ eexists. apply getChildByRole_short. right. exact N. }
  unfold returns.
  rewrite (getChildByRole_run role _ target w ltac:(rewrite E; discriminate) R).
  destruct (readContract _ _ _ (net w)) as [[? | ?] ?]; eexists; reflexivity.
Qed.

Lemma getChildrenCount_settles ownerAddress (w : World Net) :
  exists v,
    returns (getChildrenCount readContract userAddress chainId ownerAddress) w v.
Proof.
  destruct (getContractAddress_cases chainId) as [[_ E] | [_ E]].
  2:{ eexists. apply getChildrenCount_short. left. exact E. }
  destruct (owner_decided ownerAddress) as [[target R] | N].
  2:{ eexists. apply getChildrenCount_short. right. exact N. }
  unfold returns.
  rewrite (getChildrenCount_run _ target w ltac:(rewrite E; discriminate) R).
  destruct (readContract _ _ _ (net w)) as [[? | ?] ?]; eexists; reflexivity.
Qed.

Lemma isChildOf_settles childAddress ownerAddress (w : World Net) :
  exists v,
    returns (isChildOf readContract userAddress chainId childAddress
               ownerAddress) w v.
Proof.
  destruct (getContractAddress_cases chainId) as [[_ E] | [_ E]].
  2:{ eexists. apply isChildOf_short. left. exact E. }
  destruct (owner_decided ownerAddress) as [[target R] | N].
  2:{ eexists. apply isChildOf_short. right. exact N. }
  unfold returns.
  rewrite (isChildOf_run childAddress _ target w
             ltac:(rewrite E; discriminate) R).
  destruct (readContract _ _ _ (net w)) as [[? | ?] ?]; eexists; reflexivity.
Qed.

(** ** Write operations *)

(** C1: for every call of [addChild] or [removeChild], the preconditions
    are tested in the order contract address, wallet, account; the first
    one that fails decides the error ([ConfigurationError], then
    [ConnectionError], then [IdentityError], three distinct errors); the
    call raises it and leaves the world as it was: no transport is
    contacted. *)
Theorem write_precondition_order (c : WriteCall) (e : JsError) (w : World Net) :
  FailedPrecondition userAddress chainId walletClient e ->
  raises (run_write readContract userAddress chainId walletClient c) w e /\
  snd (run_write readContract userAddress chainId walletClient c w) = w /\
  no_network (run_write readContract userAddress chainId walletClient c) w /\
  ConfigurationError <> ConnectionError /\
  ConnectionError <> IdentityError /\
  ConfigurationError <> IdentityError.
Proof.
  intros H. unfold raises, no_network.
  rewrite (run_write_failed c e w H). cbn [fst snd].
  repeat split; discriminate.
Qed.

(** C3: when the three preconditions hold, the flag is set before the
    request is submitted and is reset as the last effect of the call, with
    no other write of the flag in between; the flag is false once the call
    has settled, whatever the wallet and the read transport answer
    (success, failed submission, failed refresh).  When a precondition
    fails the flag is never written and keeps its value. *)
Theorem pending_bracket (c : WriteCall) (w : World Net) :
  (forall wallet account,
      Ready userAddress chainId walletClient wallet account ->
      let w' := snd (run_write readContract userAddress chainId walletClient c w) in
      isPending w' = false /\
      exists mid,
        trace w' = (trace w ++ [EvSetIsPending true;
                                EvWriteContract (write_request chainId account c)]
                            ++ mid ++ [EvSetIsPending false])%list /\
        filter is_setIsPending mid = []) /\
  (forall e,
      FailedPrecondition userAddress chainId walletClient e ->
      let w' := snd (run_write readContract userAddress chainId walletClient c w) in
      isPending w' = isPending w /\
      filter is_setIsPending (trace w') = filter is_setIsPending (trace w)).
Proof.
  split.
  - intros wallet account R. rewrite (run_write_ready c wallet account w R).
    cbn zeta.
    destruct (wallet _ (net w)) as [[h | e] n1];
      [destruct (readContract _ _ _ n1) as [[l | e] n2] |];
      cbn [snd isPending trace]; (split; [reflexivity |]).
    + eexists [_; _]. split; reflexivity.
    + eexists [_; _]. split; reflexivity.
    + exists []. split; reflexivity.
  - intros e F. rewrite (run_write_failed c e w F). split; reflexivity.
Qed.

(** C4: a write raises only for a failed precondition, with the error of
    that precondition, or because the submission through the wallet
    failed, with the error of the wallet.  Once the submission has
    succeeded the call returns the handle; in particular a failing refresh
    does not make it raise. *)
Theorem write_raises_only (c : WriteCall) (w : World Net) :
  (forall e,
      raises (run_write readContract userAddress chainId walletClient c) w e ->
      FailedPrecondition userAddress chainId walletClient e \/
      exists wallet account n1,
        Ready userAddress chainId walletClient wallet account /\
        wallet (write_request chainId account c) (net w) = (Throw e, n1)) /\
  (forall wallet account h n1,
      Ready userAddress chainId walletClient wallet account ->
      wallet (write_request chainId account c) (net w) = (Normal h, n1) ->
      returns (run_write readContract userAddress chainId walletClient c) w h) /\
  (forall wallet account h n1 e n2,
      Ready userAddress chainId walletClient wallet account ->
      wallet (write_request chainId account c) (net w) = (Normal h, n1) ->
      readContract _ (getPublicClient chainId)
        (read_request chainId abi_getChildren [account]) n1 = (Throw e, n2) ->
      returns (run_write readContract userAddress chainId walletClient c) w h).
Proof.
  assert (OK : forall wallet account h n1,
      Ready userAddress chainId walletClient wallet account ->
      wallet (write_request chainId account c) (net w) = (Normal h, n1) ->
      returns (run_write readContract userAddress chainId walletClient c) w h).
  { intros wallet account h n1 R S. unfold returns.
    rewrite (run_write_ready c wallet account w R). cbn zeta. rewrite S.
    destruct (readContract _ _ _ n1) as [[l | e] n2]; reflexivity. }
  split; [| split; [exact OK | intros; eapply OK; eassumption]].
  intros e. unfold raises.
  destruct preconditions_decided as [[e' F] | (wallet & account & R)].
  - rewrite (run_write_failed c e' w F). cbn [fst].
    intros [= <-]. left. exact F.
  - rewrite (run_write_ready c wallet account w R). cbn zeta.
    destruct (wallet _ (net w)) as [[h | e0] n1] eqn:S.
    + destruct (readContract _ _ _ n1) as [[l | e1] n2]; discriminate.
    + cbn [fst]. intros [= <-]. right. exists wallet, account, n1. auto.
Qed.

(** C5, amended: when the preconditions hold and the submission returns
    the handle [h], the call returns exactly [h]; the submission precedes
    the refresh read of the authenticated account's list, which precedes
    the release of the flag and the return.  When that read succeeds the
    cache holds the fetched list when the call settles; when it fails the
    cache is left as it was. *)
Theorem write_then_refresh (c : WriteCall) wallet account h n1 (w : World Net) :
  Ready userAddress chainId walletClient wallet account ->
  wallet (write_request chainId account c) (net w) = (Normal h, n1) ->
  let w' := snd (run_write readContract userAddress chainId walletClient c w) in
  let refresh := readContract _ (getPublicClient chainId)
                   (read_request chainId abi_getChildren [account]) n1 in
  returns (run_write readContract userAddress chainId walletClient c) w h /\
  (exists mid,
      trace w' = (trace w ++ [EvSetIsPending true;
                              EvWriteContract (write_request chainId account c);
                              read_event chainId abi_getChildren [account]]
                          ++ mid ++ [EvSetIsPending false])%list) /\
  (forall l n2, refresh = (Normal l, n2) ->
      children w' = l /\ net w' = n2 /\
      trace w' = (trace w ++ [EvSetIsPending true;
                              EvWriteContract (write_request chainId account c);
                              read_event chainId abi_getChildren [account];
                              EvSetChildren l; EvSetIsPending false])%list) /\
  (forall e n2, refresh = (Throw e, n2) ->
      children w' = children w /\
      filter is_setChildren (trace w') = filter is_setChildren (trace w)).
Proof.
  intros R S. unfold returns.
  rewrite (run_write_ready c wallet account w R). cbn zeta. rewrite S.
  destruct (readContract _ _ _ n1) as [[l | e] n2]; cbn [fst snd trace children net].
  - split; [reflexivity |]. split; [eexists [_]; reflexivity |].
    split; [intros l' n2' [= <- <-]; auto | intros; discriminate].
  - split; [reflexivity |]. split; [eexists [_]; reflexivity |].
    split; [intros; discriminate |].
    intros e' n2' _. split; [reflexivity |].
    rewrite filter_app. cbn. apply app_nil_r.
Qed.

(** ** Read operations *)

(** C2: each of the four read operations settles normally on every input;
    when the contract address is unset, or neither an explicit owner nor
    an authenticated account is available, it returns its default (empty
    list, null, 0, false) without contacting a transport; when the read
    call itself fails it returns the same default. *)
Theorem reads_degrade (role : string) (childAddress : Address)
    (ownerAddress : option Address) (w : World Net) :
  let fetch := fetchChildren readContract userAddress chainId ownerAddress in
  let lookup := getChildByRole readContract userAddress chainId role ownerAddress in
  let count := getChildrenCount readContract userAddress chainId ownerAddress in
  let member :=
    isChildOf readContract userAddress chainId childAddress ownerAddress in
  ((exists v, returns fetch w v) /\ (exists v, returns lookup w v) /\
   (exists v, returns count w v) /\ (exists v, returns member w v)) /\
  (short_circuits userAddress chainId ownerAddress ->
   (returns fetch w [] /\ no_network fetch w) /\
   (returns lookup w None /\ no_network lookup w) /\
   (returns count w (Finite 0) /\ no_network count w) /\
   (returns member w false /\ no_network member w)) /\
  (forall target e n',
      getContractAddress chainId <> ZERO_ADDRESS ->
      resolved_owner ownerAddress userAddress target ->
      (read_call readContract chainId abi_getChildren [target] (net w) = (Throw e, n') -> returns fetch w []) /\
      (read_call readContract chainId abi_getChildByRole [target; role] (net w)
         = (Throw e, n') ->
       returns lookup w None) /\
      (read_call readContract chainId abi_getChildrenCount [target] (net w)
         = (Throw e, n') ->
       returns count w (Finite 0)) /\
      (read_call readContract chainId abi_isChildOf [target; childAddress] (net w)
         = (Throw e, n') ->
       returns member w false)).
Proof.
  cbn zeta. split; [| split].
  - repeat split.
    + apply fetchChildren_settles.
    + apply getChildByRole_settles.
    + apply getChildrenCount_settles.
    + apply isChildOf_settles.
  - intros S. repeat apply conj.
    all: first [ apply fetchChildren_short | apply getChildByRole_short
               | apply getChildrenCount_short | apply isChildOf_short ];
      exact S.
  - intros target e n' HA R. unfold returns, read_call.
    repeat apply conj; intros F.
    + rewrite (fetchChildren_run _ target w HA R), F. reflexivity.
    + rewrite (getChildByRole_run role _ target w HA R), F. reflexivity.
    + rewrite (getChildrenCount_run _ target w HA R), F. reflexivity.
    + rewrite (isChildOf_run childAddress _ target w HA R), F. reflexivity.
Qed.

(** C6: when the lookup by role succeeds with the address [a],
    [getChildByRole] returns null exactly when [a] is the zero address,
    and returns [a] itself for every other address. *)
Theorem getChildByRole_sentinel (role : string) (ownerAddress : option Address)
    (target a : Address) (n' : Net) (w : World Net) :
  getContractAddress chainId <> ZERO_ADDRESS ->
  resolved_owner ownerAddress userAddress target ->
  readContract _ (getPublicClient chainId)
    (read_request chainId abi_getChildByRole [target; role]) (net w)
    = (Normal a, n') ->
  let lookup := getChildByRole readContract userAddress chainId role ownerAddress in
  (returns lookup w None <-> a = ZERO_ADDRESS) /\
  (a <> ZERO_ADDRESS -> returns lookup w (Some a)).
Proof.
  intros HA R F. cbn zeta. unfold returns.
  rewrite (getChildByRole_run role _ target w HA R), F. cbn [fst].
  destruct (String.eqb_spec a ZERO_ADDRESS) as [E | E].
  - split; [tauto | contradiction].
  - split; [split; [discriminate | contradiction] | reflexivity].
Qed.

(** C9: when the count query succeeds with the on-chain count [n],
    [getChildrenCount] returns [Number n]; for every count up to the
    largest safe integer the conversion is exact, so the returned number
    is [n] itself. *)
Theorem getChildrenCount_exact (ownerAddress : option Address)
    (target : Address) (n : Z) (n' : Net) (w : World Net) :
  getContractAddress chainId <> ZERO_ADDRESS ->
  resolved_owner ownerAddress userAddress target ->
  readContract _ (getPublicClient chainId)
    (read_request chainId abi_getChildrenCount [target]) (net w)
    = (Normal n, n') ->
  let count := getChildrenCount readContract userAddress chainId ownerAddress in
  returns count w (Number n) /\
  (0 <= n <= MAX_SAFE_INTEGER -> returns count w (Finite n)).
Proof.
  intros HA R F. cbn zeta. unfold returns.
  rewrite (getChildrenCount_run _ target w HA R), F. cbn [fst].
  split; [reflexivity |]. intros B. rewrite (Number_safe n B). reflexivity.
Qed.

(** C10: when the read inside [fetchChildren] fails, the call returns the
    empty list and [setChildren] is not called: the cache keeps the value
    it had; whenever that value is not empty, the returned list and the
    cache differ. *)
Theorem fetchChildren_failure_keeps_cache (ownerAddress : option Address)
    (target : Address) (e : JsError) (n' : Net) (w : World Net) :
  getContractAddress chainId <> ZERO_ADDRESS ->
  resolved_owner ownerAddress userAddress target ->
  readContract _ (getPublicClient chainId)
    (read_request chainId abi_getChildren [target]) (net w) = (Throw e, n') ->
  let fetch := fetchChildren readContract userAddress chainId ownerAddress in
  returns fetch w [] /\
  children (snd (fetch w)) = children w /\
  filter is_setChildren (trace (snd (fetch w))) = filter is_setChildren (trace w) /\
  (children w <> [] -> ~ returns fetch w (children (snd (fetch w)))).
Proof.
  intros HA R F. cbn zeta. unfold returns.
  rewrite (fetchChildren_run _ target w HA R), F. cbn [fst snd children trace].
  repeat split.
  - rewrite filter_app. cbn. apply app_nil_r.
  - intros NE [= E]. apply NE. symmetry. exact E.
Qed.

End Runs.

(** ** The statements on concrete runs *)

Lemma sepolia_configured : getContractAddress 11155111 <> ZERO_ADDRESS.
Proof. vm_compute. discriminate. Qed.

Lemma stub_ready (wallet : WalletClient Stub.Net) :
  Ready (Some Stub.U) 11155111 (Some wallet) wallet Stub.U.
Proof. repeat split. exact sepolia_configured. Qed.

Lemma stub_owner : resolved_owner None (Some Stub.U) Stub.U.
Proof. split; reflexivity. Qed.

Lemma write_precondition_order_witness :
  FailedPrecondition (Net := Stub.Net) None 31337 None ConfigurationError /\
  raises (run_write Stub.read_ok None 31337 None (CallAddChild Stub.A1 "admin"))
    Stub.world0 ConfigurationError /\
  no_network (run_write Stub.read_ok None 31337 None (CallAddChild Stub.A1 "admin"))
    Stub.world0.
Proof.
  assert (F : FailedPrecondition (Net := Stub.Net) None 31337 None
                ConfigurationError) by (constructor; reflexivity).
  split; [exact F |].
  destruct (write_precondition_order Stub.read_ok None 31337 None
              (CallAddChild Stub.A1 "admin") ConfigurationError Stub.world0 F)
    as (R & _ & N & _).
  split; [exact R | exact N].
Defined.

Lemma pending_bracket_witness :
  isPending (snd (run_write Stub.read_fail (Some Stub.U) 11155111
                    (Some Stub.wallet_fail) (CallAddChild Stub.A1 "admin")
                    Stub.world0)) = false /\
  isPending (snd (run_write Stub.read_ok (Some Stub.U) 11155111 None
                    (CallRemoveChild Stub.A1) Stub.world0))
  = isPending Stub.world0.
Proof.
  split.
  - apply (proj1 (pending_bracket Stub.read_fail (Some Stub.U) 11155111
                    (Some Stub.wallet_fail) (CallAddChild Stub.A1 "admin")
                    Stub.world0) Stub.wallet_fail Stub.U).
    apply stub_ready.
  - apply (proj2 (pending_bracket Stub.read_ok (Some Stub.U) 11155111 None
                    (CallRemoveChild Stub.A1) Stub.world0) ConnectionError).
    apply fp_connection; [exact sepolia_configured | reflexivity].
Defined.

Lemma write_raises_only_witness :
  returns (run_write Stub.read_fail (Some Stub.U) 11155111
             (Some Stub.wallet_ok) (CallRemoveChild Stub.B1)) Stub.world1
    "0xTX1".
Proof.
  apply (proj1 (proj2 (write_raises_only Stub.read_fail (Some Stub.U) 11155111
                         (Some Stub.wallet_ok) (CallRemoveChild Stub.B1)
                         Stub.world1))
           Stub.wallet_ok Stub.U "0xTX1" (Stub.mkNet [mkChild Stub.B1 "ops"] 1)).
  - apply stub_ready.
  - reflexivity.
Defined.

(** C5, as stated, fails: with a wallet that accepts the submission and a
    read transport that is down, [addChild] settles with the handle while
    the cache was never written and still holds the list from before the
    write, which the chain no longer has. *)
Lemma write_settles_with_stale_cache :
  let r := run_write Stub.read_fail (Some Stub.U) 11155111 (Some Stub.wallet_ok)
             (CallAddChild Stub.A1 "admin") Stub.world1 in
  fst r = Normal "0xTX1" /\
  filter is_setChildren (trace (snd r)) = [] /\
  children (snd r) = children Stub.world1 /\
  children (snd r) <> Stub.registry (net (snd r)).
Proof. vm_compute. repeat split. discriminate. Qed.

Lemma write_then_refresh_witness :
  let r := run_write Stub.read_ok (Some Stub.U) 11155111 (Some Stub.wallet_ok)
             (CallAddChild Stub.A1 "admin") Stub.world0 in
  returns (run_write Stub.read_ok (Some Stub.U) 11155111 (Some Stub.wallet_ok)
             (CallAddChild Stub.A1 "admin")) Stub.world0 "0xTX1" /\
  children (snd r) = [mkChild Stub.A1 "admin"].
Proof.
  destruct (write_then_refresh Stub.read_ok (Some Stub.U) 11155111
              (Some Stub.wallet_ok) (CallAddChild Stub.A1 "admin")
              Stub.wallet_ok Stub.U "0xTX1"
              (Stub.mkNet [mkChild Stub.A1 "admin"] 1) Stub.world0
              (stub_ready Stub.wallet_ok) eq_refl)
    as (R & _ & OK & _).
  split; [exact R |].
  exact (proj1 (OK [mkChild Stub.A1 "admin"]
                  (Stub.mkNet [mkChild Stub.A1 "admin"] 2) eq_refl)).
Defined.

Lemma reads_degrade_witness :
  returns (fetchChildren Stub.read_ok (Some Stub.U) 31337 None) Stub.world1 [] /\
  no_network (isChildOf Stub.read_ok None 11155111 Stub.A1 None) Stub.world1 /\
  returns (getChildByRole Stub.read_fail (Some Stub.U) 11155111 "ops" None)
    Stub.world1 None.
Proof.
  split; [| split].
  - apply (proj1 (proj2 (reads_degrade Stub.read_ok (Some Stub.U) 31337
                           "ops" Stub.A1 None Stub.world1))).
    left. reflexivity.
  - apply (proj1 (proj2 (reads_degrade Stub.read_ok None 11155111
                           "ops" Stub.A1 None Stub.world1))).
    right. split; reflexivity.
  - apply (proj2 (proj2 (reads_degrade Stub.read_fail (Some Stub.U) 11155111
                           "ops" Stub.A1 None Stub.world1))
             Stub.U (Error "rpc unreachable")
             (Stub.mkNet [mkChild Stub.B1 "ops"] 1)
             sepolia_configured stub_owner).
    reflexivity.
Defined.

Lemma getChildByRole_sentinel_witness :
  returns (getChildByRole Stub.read_ok (Some Stub.U) 11155111 "ops" None)
    Stub.world1 (Some Stub.B1) /\
  returns (getChildByRole Stub.read_ok (Some Stub.U) 11155111 "ops" None)
    Stub.world0 None.
Proof.
  split.
  - apply (getChildByRole_sentinel Stub.read_ok (Some Stub.U) 11155111 "ops"
             None Stub.U Stub.B1 (Stub.mkNet [mkChild Stub.B1 "ops"] 1)
             Stub.world1 sepolia_configured stub_owner eq_refl).
    discriminate.
  - apply (getChildByRole_sentinel Stub.read_ok (Some Stub.U) 11155111 "ops"
             None Stub.U ZERO_ADDRESS (Stub.mkNet [] 1)
             Stub.world0 sepolia_configured stub_owner eq_refl).
    reflexivity.
Defined.

Lemma getChildrenCount_exact_witness :
  returns (getChildrenCount Stub.read_ok (Some Stub.U) 11155111 None)
    Stub.world1 (Finite 1).
Proof.
  apply (getChildrenCount_exact Stub.read_ok (Some Stub.U) 11155111 None
           Stub.U 1 (Stub.mkNet [mkChild Stub.B1 "ops"] 1) Stub.world1
           sepolia_configured stub_owner eq_refl).
  unfold MAX_SAFE_INTEGER. lia.
Defined.

Lemma fetchChildren_failure_keeps_cache_witness :
  let fetch := fetchChildren Stub.read_fail (Some Stub.U) 11155111 None in
  returns fetch Stub.world1 [] /\
  children (snd (fetch Stub.world1)) = [mkChild Stub.B1 "ops"].
Proof.
  destruct (fetchChildren_failure_keeps_cache Stub.read_fail (Some Stub.U)
              11155111 None Stub.U (Error "rpc unreachable")
              (Stub.mkNet [mkChild Stub.B1 "ops"] 1) Stub.world1
              sepolia_configured stub_owner eq_refl)
    as (R & K & _).
  split; [exact R | exact K].
Defined.

(** ** Accuracy of the conversion of counts *)

Lemma round53_error (m : Z) :
  0 <= m -> 0 <= round53 m /\ Z.abs (round53 m - m) * 2 ^ 53 <= m.
Proof.
  intros Hm. unfold round53.
  destruct (Z.ltb_spec (Z.log2 m) 53) as [L | L].
  - split; [lia |]. rewrite Z.sub_diag. cbn. lia.
  - assert (Hpos : 0 < m).
    { destruct (Z.eq_dec m 0) as [-> | N]; [cbn in L; lia | lia]. }
    destruct (Z.log2_spec m Hpos) as [Hlo _].
    set (k := Z.log2 m) in *.
    assert (Hsh : 1 <= k - 52) by lia.
    rewrite Z.shiftr_div_pow2, Z.land_ones by lia.
    rewrite !Z.shiftl_mul_pow2, Z.mul_1_l by lia.
    set (H := 2 ^ (k - 52 - 1)).
    assert (HP : 2 ^ (k - 52) = 2 * H).
    { unfold H. replace (k - 52) with (Z.succ (k - 52 - 1)) at 1 by lia.
      rewrite Z.pow_succ_r by lia. reflexivity. }
    assert (HK : H * 2 ^ 53 = 2 ^ k).
    { unfold H. rewrite <- Z.pow_add_r by lia. f_equal. lia. }
    assert (HH : 0 < H) by (apply Z.pow_pos_nonneg; lia).
    rewrite HP.
    pose proof (Z.div_mod m (2 * H) ltac:(lia)) as DM.
    pose proof (Z.mod_pos_bound m (2 * H) ltac:(lia)) as MB.
    pose proof (Z.div_pos m (2 * H) ltac:(lia) ltac:(lia)) as QP.
    set (q := m / (2 * H)) in *. set (r := m mod (2 * H)) in *.
    change (2 ^ 53) with 9007199254740992 in *.
    set (K := 2 ^ k) in *.
    destruct ((H <? r) || ((r =? H) && Z.odd q)) eqn:C.
    + assert (HR : H <= r).
      { apply orb_true_iff in C. destruct C as [C | C].
        - apply Z.ltb_lt in C. lia.
        - apply andb_true_iff in C. destruct C as [C _].
          apply Z.eqb_eq in C. lia. }
      split; nia.
    + apply orb_false_iff in C. destruct C as [C _].
      apply Z.ltb_ge in C. split; nia.
Qed.

Lemma Number_uint256 (n : Z) :
  0 <= n <= UINT256_MAX ->
  exists z, Number n = Finite z /\ 0 <= z /\ Z.abs (z - n) * 2 ^ 53 <= n.
Proof.
  unfold UINT256_MAX. intros [H0 H1].
  destruct (round53_error n H0) as [R0 RE].
  exists (round53 n). unfold Number. rewrite Z.abs_eq by assumption.
  assert (B1 : 2 ^ 257 = 2 * 2 ^ 256) by reflexivity.
  assert (B2 : 2 ^ 257 <= 2 ^ 1024) by (apply Z.pow_le_mono_r; lia).
  change (2 ^ 53) with 9007199254740992 in RE |- *.
  destruct (Z.leb_spec (2 ^ 1024) (round53 n)); [lia |].
  split; [| split; assumption].
  f_equal. destruct (Z.eq_dec n 0) as [-> | N]; [reflexivity |].
  rewrite Z.sgn_pos by lia. lia.
Qed.

(** ** Effects of the operations *)

Section Effects.

Context {Net : Type}.
Variable readContract :
  forall T : Type, PublicClientConfig -> ReadRequest T -> Net -> Completion T * Net.
Variable userAddress : option Address.
Variable chainId : Z.
Variable walletClient : option (WalletClient Net).

(** What a run leaves behind: the appended events, all addressed to
    Sepolia, with at most [budget] transport calls among them. *)
Ltac effects_done :=
  unfold appends, bind, console_warn, ret, emit, read_event;
  cbn [fst snd net trace isPending children];
  first [ exists []; split; [symmetry; apply app_nil_r |]
        | eexists; split; [reflexivity |] ];
  repeat split; cbn; try reflexivity; try lia; repeat constructor.

Ltac read_effects op run owner :=
  let C := fresh "C" in
  let E := fresh "E" in
  let HA := fresh "HA" in
  unfold appends;
  destruct (getContractAddress_cases chainId) as [[C E] | [C E]];
  [ assert (HA : getContractAddress chainId <> ZERO_ADDRESS)
      by (rewrite E; discriminate);
    destruct (owner_decided userAddress owner) as [[? ?] | [? ?]];
    [ erewrite run by eassumption;
      match goal with
      | |- context [readContract ?T ?cfg ?r ?n] =>
          destruct (readContract T cfg r n) as [[? | ?] ?]
      end; subst chainId; effects_done
    | unfold op; rewrite (address_unset_false _ HA);
      destruct (unresolved_owner userAddress owner
                  (owner_unresolved userAddress owner ltac:(eassumption)
                     ltac:(eassumption)))
        as [-> | (? & -> & ->)]; effects_done ]
  | unfold op; rewrite (address_unset_true _ E); effects_done ].

Lemma fetchChildren_effects ownerAddress (w : World Net) :
  let fetch := fetchChildren readContract userAddress chainId ownerAddress in
  exists evs,
    appends fetch w evs /\ Forall sepolia_only evs /\
    (network_calls evs <= 1)%nat /\
    isPending (snd (fetch w)) = isPending w.
Proof.
  cbn zeta. read_effects @fetchChildren @fetchChildren_run ownerAddress.
Qed.

Lemma getChildByRole_effects role ownerAddress (w : World Net) :
  let lookup := getChildByRole readContract userAddress chainId role ownerAddress in
  exists evs,
    appends lookup w evs /\ Forall sepolia_only evs /\
    (network_calls evs <= 1)%nat /\
    isPending (snd (lookup w)) = isPending w /\
    children (snd (lookup w)) = children w.
Proof.
  cbn zeta. read_effects @getChildByRole @getChildByRole_run ownerAddress.
Qed.

Lemma getChildrenCount_effects ownerAddress (w : World Net) :
  let count := getChildrenCount readContract userAddress chainId ownerAddress in
  exists evs,
    appends count w evs /\ Forall sepolia_only evs /\
    (network_calls evs <= 1)%nat /\
    isPending (snd (count w)) = isPending w /\
    children (snd (count w)) = children w.
Proof.
  cbn zeta. read_effects @getChildrenCount @getChildrenCount_run ownerAddress.
Qed.

Lemma isChildOf_effects childAddress ownerAddress (w : World Net) :
  let member :=
    isChildOf readContract userAddress chainId childAddress ownerAddress in
  exists evs,
    appends member w evs /\ Forall sepolia_only evs /\
    (network_calls evs <= 1)%nat /\
    isPending (snd (member w)) = isPending w /\
    children (snd (member w)) = children w.
Proof.
  cbn zeta. read_effects @isChildOf @isChildOf_run ownerAddress.
Qed.

Lemma run_write_effects (c : WriteCall) (w : World Net) :
  let write := run_write readContract userAddress chainId walletClient c in
  exists evs,
    appends write w evs /\ Forall sepolia_only evs /\
    (network_calls evs <= 2)%nat.
Proof.
  cbn zeta.
  destruct (preconditions_decided userAddress chainId walletClient)
    as [[e F] | (wallet & account & R)].
  - unfold appends. rewrite (run_write_failed _ _ _ _ c e w F). cbn [snd].
    exists []. rewrite app_nil_r. repeat split; [constructor | cbn; lia].
  - unfold appends. rewrite (run_write_ready _ _ _ _ c wallet account w R).
    cbn zeta.
    assert (C := configured_chain chainId (proj1 R)). subst chainId.
    destruct (wallet _ (net w)) as [[h | e] n1];
      [destruct (readContract _ _ _ n1) as [[l | e] n2] |];
      cbn [snd trace]; (eexists; split; [reflexivity |]);
      destruct c; split; cbn; try lia; repeat constructor.
Qed.

(** ** The cache *)

(** X1: a successful [fetchChildren] replaces the cache by the list it
    read, whatever the cache held, and returns that same list; it makes
    one read for the resolved owner and leaves the flag alone. *)
Theorem fetchChildren_success_replaces_cache (ownerAddress : option Address)
    (target : Address) (l : list Child) (n' : Net) (w : World Net) :
  getContractAddress chainId <> ZERO_ADDRESS ->
  resolved_owner ownerAddress userAddress target ->
  read_call readContract chainId abi_getChildren [target] (net w)
    = (Normal l, n') ->
  let fetch := fetchChildren readContract userAddress chainId ownerAddress in
  returns fetch w l /\
  children (snd (fetch w)) = l /\
  isPending (snd (fetch w)) = isPending w /\
  net (snd (fetch w)) = n' /\
  appends fetch w [read_event chainId abi_getChildren [target]; EvSetChildren l].
Proof.
  intros HA R F. cbn zeta. unfold returns, appends, read_call in *.
  rewrite (fetchChildren_run _ _ _ _ target w HA R), F.
  repeat split.
Qed.


(** X3: no read operation touches the pending flag, and the lookup, the
    count and the membership test never touch the cache: only
    [fetchChildren] writes it. *)
Theorem reads_keep_state (role : string) (childAddress : Address)
    (ownerAddress : option Address) (w : World Net) :
  let fetch := fetchChildren readContract userAddress chainId ownerAddress in
  let lookup := getChildByRole readContract userAddress chainId role ownerAddress in
  let count := getChildrenCount readContract userAddress chainId ownerAddress in
  let member :=
    isChildOf readContract userAddress chainId childAddress ownerAddress in
  isPending (snd (fetch w)) = isPending w /\
  (isPending (snd (lookup w)) = isPending w /\
   children (snd (lookup w)) = children w) /\
  (isPending (snd (count w)) = isPending w /\
   children (snd (count w)) = children w) /\
  (isPending (snd (member w)) = isPending w /\
   children (snd (member w)) = children w).
Proof.
  cbn zeta.
  destruct (fetchChildren_effects ownerAddress w) as (_ & _ & _ & _ & P1).
  destruct (getChildByRole_effects role ownerAddress w)
    as (_ & _ & _ & _ & P2 & C2).
  destruct (getChildrenCount_effects ownerAddress w)
    as (_ & _ & _ & _ & P3 & C3).
  destruct (isChildOf_effects childAddress ownerAddress w)
    as (_ & _ & _ & _ & P4 & C4).
  auto 10.
Qed.

(** ** Transport calls *)

(** X4: on every input a read operation makes at most one transport call
    and a write operation at most two. *)
Theorem network_call_budget (c : WriteCall) (role : string)
    (childAddress : Address) (ownerAddress : option Address) (w : World Net) :
  let after {A : Type} (m : M Net A) := network_calls (trace (snd (m w))) in
  let before := network_calls (trace w) in
  (after (fetchChildren readContract userAddress chainId ownerAddress)
     <= before + 1)%nat /\
  (after (getChildByRole readContract userAddress chainId role ownerAddress)
     <= before + 1)%nat /\
  (after (getChildrenCount readContract userAddress chainId ownerAddress)
     <= before + 1)%nat /\
  (after (isChildOf readContract userAddress chainId childAddress ownerAddress)
     <= before + 1)%nat /\
  (after (run_write readContract userAddress chainId walletClient c)
     <= before + 2)%nat.
Proof.
  cbn zeta.
  destruct (fetchChildren_effects ownerAddress w) as (e1 & A1 & _ & B1 & _).
  destruct (getChildByRole_effects role ownerAddress w)
    as (e2 & A2 & _ & B2 & _).
  destruct (getChildrenCount_effects ownerAddress w)
    as (e3 & A3 & _ & B3 & _).
  destruct (isChildOf_effects childAddress ownerAddress w)
    as (e4 & A4 & _ & B4 & _).
  destruct (run_write_effects c w) as (e5 & A5 & _ & B5).
  unfold appends in *. rewrite A1, A2, A3, A4, A5, !network_calls_app. lia.
Qed.

(** X5: with the preconditions met, a rejected submission is the only
    transport call of the write: the error of the wallet is raised, no
    refresh is attempted and the cache is untouched; an accepted
    submission is always followed by exactly one refresh read. *)
Theorem write_call_counts (c : WriteCall) wallet account (w : World Net) :
  Ready userAddress chainId walletClient wallet account ->
  let write := run_write readContract userAddress chainId walletClient c in
  (forall e n1,
      wallet (write_request chainId account c) (net w) = (Throw e, n1) ->
      raises write w e /\
      children (snd (write w)) = children w /\
      net (snd (write w)) = n1 /\
      network_calls (trace (snd (write w))) = (network_calls (trace w) + 1)%nat) /\
  (forall h n1,
      wallet (write_request chainId account c) (net w) = (Normal h, n1) ->
      network_calls (trace (snd (write w))) = (network_calls (trace w) + 2)%nat).
Proof.
  intros R. cbn zeta. unfold raises.
  rewrite (run_write_ready _ _ _ _ c wallet account w R). cbn zeta.
  split; intros ? n1 S; rewrite S.
  - cbn [fst snd children net trace]. rewrite network_calls_app.
    repeat split.
  - destruct (readContract _ _ _ n1) as [[l | e] n2];
      cbn [snd trace]; rewrite network_calls_app; reflexivity.
Qed.

(** X6: whatever the network id, the wallet and the accounts, every
    transport call of every operation is addressed to the Sepolia
    deployment through the Sepolia chain: the loopback endpoint and the
    Hardhat chain are never used. *)
Theorem only_sepolia_is_contacted (c : WriteCall) (role : string)
    (childAddress : Address) (ownerAddress : option Address) (w : World Net) :
  let clean {A : Type} (m : M Net A) :=
    exists evs, appends m w evs /\ Forall sepolia_only evs in
  clean (fetchChildren readContract userAddress chainId ownerAddress) /\
  clean (getChildByRole readContract userAddress chainId role ownerAddress) /\
  clean (getChildrenCount readContract userAddress chainId ownerAddress) /\
  clean (isChildOf readContract userAddress chainId childAddress ownerAddress) /\
  clean (run_write readContract userAddress chainId walletClient c).
Proof.
  cbn zeta.
  destruct (fetchChildren_effects ownerAddress w) as (e1 & A1 & S1 & _).
  destruct (getChildByRole_effects role ownerAddress w)
    as (e2 & A2 & S2 & _).
  destruct (getChildrenCount_effects ownerAddress w)
    as (e3 & A3 & S3 & _).
  destruct (isChildOf_effects childAddress ownerAddress w)
    as (e4 & A4 & S4 & _).
  destruct (run_write_effects c w) as (e5 & A5 & S5 & _).
  repeat split; eauto.
Qed.


(** ** The owner of a read *)

(** X8: an explicit, non-empty owner wins over the authenticated account:
    the run of each read operation is the same whatever the account is,
    known or not. *)
Theorem explicit_owner_overrides_account (owner : Address)
    (other : option Address) (role : string) (childAddress : Address)
    (w : World Net) :
  truthy_string owner = true ->
  fetchChildren readContract userAddress chainId (Some owner) w
    = fetchChildren readContract other chainId (Some owner) w /\
  getChildByRole readContract userAddress chainId role (Some owner) w
    = getChildByRole readContract other chainId role (Some owner) w /\
  getChildrenCount readContract userAddress chainId (Some owner) w
    = getChildrenCount readContract other chainId (Some owner) w /\
  isChildOf readContract userAddress chainId childAddress (Some owner) w
    = isChildOf readContract other chainId childAddress (Some owner) w.
Proof.
  intros H.
  unfold fetchChildren, getChildByRole, getChildrenCount, isChildOf, js_or.
  cbn [truthy]. rewrite H. repeat split.
Qed.

(** X9: an owner argument that is falsy (the empty string) counts as no
    argument at all: each read operation runs as if it had been called
    without an owner, for the authenticated account. *)
Theorem falsy_owner_is_absent (ownerAddress : option Address)
    (role : string) (childAddress : Address) (w : World Net) :
  truthy ownerAddress = false ->
  fetchChildren readContract userAddress chainId ownerAddress w
    = fetchChildren readContract userAddress chainId None w /\
  getChildByRole readContract userAddress chainId role ownerAddress w
    = getChildByRole readContract userAddress chainId role None w /\
  getChildrenCount readContract userAddress chainId ownerAddress w
    = getChildrenCount readContract userAddress chainId None w /\
  isChildOf readContract userAddress chainId childAddress ownerAddress w
    = isChildOf readContract userAddress chainId childAddress None w.
Proof.
  intros H.
  unfold fetchChildren, getChildByRole, getChildrenCount, isChildOf, js_or.
  rewrite H. cbn [truthy]. repeat split.
Qed.

(** ** Answers that are not defaults *)

(** Every read either short-circuits or runs for a resolved owner on a
    configured network. *)
Lemma read_situation (ownerAddress : option Address) :
  short_circuits userAddress chainId ownerAddress \/
  (getContractAddress chainId <> ZERO_ADDRESS /\
   exists target, resolved_owner ownerAddress userAddress target).
Proof.
  destruct (getContractAddress_cases chainId) as [[_ E] | [_ E]].
  - destruct (owner_decided userAddress ownerAddress) as [R | N].
    + right. split; [rewrite E; discriminate | exact R].
    + left. right. exact N.
  - left. left. exact E.
Qed.

(** X10: [getChildByRole] never hands the zero address to its caller: an
    address it returns is not the sentinel and is the one the contract
    answered for the resolved owner. *)
Theorem getChildByRole_never_zero (role : string)
    (ownerAddress : option Address) (a : Address) (w : World Net) :
  returns (getChildByRole readContract userAddress chainId role ownerAddress)
    w (Some a) ->
  a <> ZERO_ADDRESS /\
  exists target n',
    resolved_owner ownerAddress userAddress target /\
    read_call readContract chainId abi_getChildByRole [target; role] (net w)
      = (Normal a, n').
Proof.
  unfold returns, read_call. intros H.
  destruct (read_situation ownerAddress) as [S | (HA & target & R)].
  - destruct (getChildByRole_short readContract userAddress chainId role
                ownerAddress w S) as [D _].
    unfold returns in D. rewrite D in H. discriminate.
  - rewrite (getChildByRole_run _ _ _ role _ target w HA R) in H.
    destruct (readContract _ _ _ (net w)) as [[a0 | e] n'] eqn:F;
      cbn [fst] in H; [| discriminate].
    destruct (String.eqb_spec a0 ZERO_ADDRESS) as [E | E]; [discriminate |].
    injection H as <-. split; [exact E |]. exists target, n'. auto.
Qed.

(** X11: a degraded answer is never a positive one.  [isChildOf] answers
    true only when the contract did; a non-empty list from
    [fetchChildren] is the list the contract returned, and it is then the
    cache; a count other than 0 is the converted count of the contract. *)
Theorem positive_answers_come_from_chain (childAddress : Address)
    (ownerAddress : option Address) (w : World Net) :
  let fetch := fetchChildren readContract userAddress chainId ownerAddress in
  let count := getChildrenCount readContract userAddress chainId ownerAddress in
  let member :=
    isChildOf readContract userAddress chainId childAddress ownerAddress in
  (returns member w true ->
   exists target n',
     resolved_owner ownerAddress userAddress target /\
     read_call readContract chainId abi_isChildOf [target; childAddress]
       (net w) = (Normal true, n')) /\
  (forall l, l <> [] -> returns fetch w l ->
   children (snd (fetch w)) = l /\
   exists target n',
     resolved_owner ownerAddress userAddress target /\
     read_call readContract chainId abi_getChildren [target] (net w)
       = (Normal l, n')) /\
  (forall v, v <> Finite 0 -> returns count w v ->
   exists target n n',
     resolved_owner ownerAddress userAddress target /\
     read_call readContract chainId abi_getChildrenCount [target] (net w)
       = (Normal n, n') /\
     v = Number n).
Proof.
  cbn zeta. unfold returns, read_call.
  destruct (read_situation ownerAddress) as [S | (HA & target & R)].
  - destruct (isChildOf_short readContract userAddress chainId childAddress
                ownerAddress w S) as [D1 _].
    destruct (fetchChildren_short readContract userAddress chainId
                ownerAddress w S) as [D2 _].
    destruct (getChildrenCount_short readContract userAddress chainId
                ownerAddress w S) as [D3 _].
    unfold returns in D1, D2, D3. rewrite D1, D2, D3.
    split; [discriminate |].
    split; intros ? N [= E]; contradiction N; auto.
  - rewrite (isChildOf_run _ _ _ childAddress _ target w HA R).
    rewrite (fetchChildren_run _ _ _ _ target w HA R).
    rewrite (getChildrenCount_run _ _ _ _ target w HA R).
    split; [| split].
    + destruct (readContract _ _ _ (net w)) as [[b | e] n'] eqn:F;
        cbn [fst]; intros [= E]. subst b. exists target, n'. auto.
    + intros l N.
      destruct (readContract _ _ _ (net w)) as [[l0 | e] n'] eqn:F;
        cbn [fst snd children]; intros [= E].
      * subst l0. split; [reflexivity |]. exists target, n'. auto.
      * contradiction N. auto.
    + intros v N.
      destruct (readContract _ _ _ (net w)) as [[n | e] n'] eqn:F;
        cbn [fst]; intros [= E].
      * exists target, n, n'. auto.
      * contradiction N. auto.
Qed.

(** X12: for every count a [uint256] can hold, [getChildrenCount] returns
    a finite, non-negative number whose distance to the on-chain count is
    at most the count divided by 2^53: the conversion never yields an
    infinity, a negative number or a wrapped value. *)
Theorem getChildrenCount_uint256 (ownerAddress : option Address)
    (target : Address) (n : Z) (n' : Net) (w : World Net) :
  getContractAddress chainId <> ZERO_ADDRESS ->
  resolved_owner ownerAddress userAddress target ->
  read_call readContract chainId abi_getChildrenCount [target] (net w)
    = (Normal n, n') ->
  0 <= n <= UINT256_MAX ->
  exists z,
    returns (getChildrenCount readContract userAddress chainId ownerAddress)
      w (Finite z) /\
    0 <= z /\ Z.abs (z - n) * 2 ^ 53 <= n.
Proof.
  intros HA R F B. unfold returns, read_call in *.
  rewrite (getChildrenCount_run _ _ _ _ target w HA R), F. cbn [fst].
  destruct (Number_uint256 n B) as (z & -> & Z0 & ZE).
  exists z. auto.
Qed.

End Effects.

(** ** The further statements on concrete runs *)

Lemma stub_read_list :
  read_call Stub.read_ok 11155111 abi_getChildren [Stub.U] (net Stub.world1)
  = (Normal [mkChild Stub.B1 "ops"], Stub.mkNet [mkChild Stub.B1 "ops"] 1).
Proof. reflexivity. Qed.

Lemma fetchChildren_success_replaces_cache_witness :
  let fetch := fetchChildren Stub.read_ok (Some Stub.U) 11155111 None in
  returns fetch Stub.world1 [mkChild Stub.B1 "ops"] /\
  children (snd (fetch Stub.world1)) = [mkChild Stub.B1 "ops"].
Proof.
  destruct (fetchChildren_success_replaces_cache Stub.read_ok (Some Stub.U)
              11155111 None Stub.U [mkChild Stub.B1 "ops"]
              (Stub.mkNet [mkChild Stub.B1 "ops"] 1) Stub.world1
              sepolia_configured stub_owner stub_read_list)
    as (R & C & _).
  split; [exact R | exact C].
Defined.


Lemma write_call_counts_witness :
  let write := run_write Stub.read_ok (Some Stub.U) 11155111
                 (Some Stub.wallet_fail) (CallAddChild Stub.A1 "admin") in
  raises write Stub.world1 (Error "user rejected the request") /\
  children (snd (write Stub.world1)) = children Stub.world1 /\
  net (snd (write Stub.world1)) = Stub.mkNet [mkChild Stub.B1 "ops"] 1 /\
  network_calls (trace (snd (write Stub.world1)))
  = (network_calls (trace Stub.world1) + 1)%nat.
Proof.
  apply (proj1 (write_call_counts Stub.read_ok (Some Stub.U) 11155111
                  (Some Stub.wallet_fail) (CallAddChild Stub.A1 "admin")
                  Stub.wallet_fail Stub.U Stub.world1
                  (stub_ready Stub.wallet_fail))
           (Error "user rejected the request")
           (Stub.mkNet [mkChild Stub.B1 "ops"] 1)).
  reflexivity.
Defined.


Lemma explicit_owner_overrides_account_witness :
  fetchChildren Stub.read_ok (Some Stub.U) 11155111 (Some Stub.A1) Stub.world1
  = fetchChildren Stub.read_ok None 11155111 (Some Stub.A1) Stub.world1.
Proof.
  apply (explicit_owner_overrides_account Stub.read_ok (Some Stub.U) 11155111
           Stub.A1 None "ops" Stub.B1 Stub.world1).
  reflexivity.
Defined.

Lemma falsy_owner_is_absent_witness :
  fetchChildren Stub.read_ok (Some Stub.U) 11155111 (Some "") Stub.world1
  = fetchChildren Stub.read_ok (Some Stub.U) 11155111 None Stub.world1.
Proof.
  apply (falsy_owner_is_absent Stub.read_ok (Some Stub.U) 11155111 (Some "")
           "ops" Stub.B1 Stub.world1).
  reflexivity.
Defined.

Lemma getChildByRole_never_zero_witness : Stub.B1 <> ZERO_ADDRESS.
Proof.
  apply (getChildByRole_never_zero Stub.read_ok (Some Stub.U) 11155111 "ops"
           None Stub.B1 Stub.world1).
  reflexivity.
Defined.

Lemma positive_answers_come_from_chain_witness :
  exists target n',
    resolved_owner None (Some Stub.U) target /\
    read_call Stub.read_ok 11155111 abi_isChildOf [target; Stub.B1]
      (net Stub.world1) = (Normal true, n').
Proof.
  apply (proj1 (positive_answers_come_from_chain Stub.read_ok (Some Stub.U)
                  11155111 Stub.B1 None Stub.world1)).
  reflexivity.
Defined.

Lemma getChildrenCount_uint256_witness :
  exists z,
    returns (getChildrenCount Stub.read_ok (Some Stub.U) 11155111 None)
      Stub.world1 (Finite z) /\
    0 <= z /\ Z.abs (z - 1) * 2 ^ 53 <= 1.
Proof.
  apply (getChildrenCount_uint256 Stub.read_ok (Some Stub.U) 11155111 None
           Stub.U 1 (Stub.mkNet [mkChild Stub.B1 "ops"] 1) Stub.world1
           sepolia_configured stub_owner eq_refl).
  unfold UINT256_MAX. lia.
Defined.
